(** * Heart-rate monitor app of the badge (badge/apps/heartrate/__init__.py)

    A shallow embedding of the app's state record, of its three lifecycle
    hooks [init], [update], [on_exit] and of the helpers they call, followed
    by the properties of the scan / connect / monitor state machine.

    Modelling choices:
    - the module-level dict [state] always carries the same seven keys, so it
      is a record; [state.get("hr_update_time", 0)] therefore never falls
      back to its default and reads the field;
    - Python integers are unbounded: ticks and heart rates are [Z];
    - the host publishes [io.pressed] and [io.ticks] once per frame; a frame
      is the pair of both, and every read of [io.ticks] inside one call of
      [update] sees the same value;
    - [BLUETOOTH_AVAILABLE] is decided by the import at load time: it is a
      variable of the development;
    - [int(...)] is truncation toward zero; the float that [math.sin]
      returns is a parameter of [_simulate_hr_reading_with], a real in
      [-1, 1], and its product by 8 is exact on floats; the state machine
      runs on [_simulate_hr_reading], its instance at the real sine of the
      Standard Library, which is also what idealises the floats of the
      drawing code;
    - drawing calls ([screen], [shapes]) never read or write [state] and are
      left out; the font of line 93 is taken to load, so that the frame
      goes on to the button handling. *)

From Stdlib Require Import String DecimalString.
From Stdlib Require Import ZArith List Bool Lia Reals Lra.
From Stdlib.Strings Require Import Byte.
Import ListNotations.

Local Open Scope Z_scope.

Module HeartRate.

(** ** Host input *)

(** Buttons of the badge; the app only looks at [BUTTON_A] and
    [BUTTON_HOME]. *)
Inductive Button : Set :=
| BUTTON_A | BUTTON_B | BUTTON_C | BUTTON_UP | BUTTON_DOWN | BUTTON_HOME.

Definition Button_eqb (a b : Button) : bool :=
  match a, b with
  | BUTTON_A, BUTTON_A | BUTTON_B, BUTTON_B | BUTTON_C, BUTTON_C
  | BUTTON_UP, BUTTON_UP | BUTTON_DOWN, BUTTON_DOWN
  | BUTTON_HOME, BUTTON_HOME => true
  | _, _ => false
  end.

(** [b in io.pressed] *)
Definition is_pressed (b : Button) (pressed : list Button) : bool :=
  existsb (Button_eqb b) pressed.

(** What the host exposes during one frame: [io.pressed] and [io.ticks]. *)
Record Frame : Type := mkFrame {
  pressed : list Button;
  ticks : Z
}.

(** ** Float helpers *)

(** Python's [int(x)] on a float: truncation toward zero. *)
Definition py_int (x : R) : Z :=
  if Rle_dec 0 x then Int_part x else - Int_part (- x).

(** An integer nearest to [x], whatever the rule for ties. *)
Definition nearest (r : Z) (x : R) : Prop :=
  (Rabs (IZR r - x) <= / 2)%R.

(** ** Heart Rate Measurement characteristic *)

(** [data[i]] of a bytes object, as an integer; only used below a length
    check, so the default is never returned. *)
Definition byte_at (data : list byte) (i : nat) : Z :=
  Z.of_N (Byte.to_N (nth i data "000"%byte)).

(** [_parse_heart_rate(data)], lines 47-57; [None] is [None]. *)
Definition _parse_heart_rate (data : list byte) : option Z :=
  if match data with [] => true | _ => false end
     || (Z.of_nat (length data) <? 2)
  then None
  else
    let flags := byte_at data 0 in
    if Z.land flags 1 =? 0 then Some (byte_at data 1)
    else if Z.of_nat (length data) >=? 3
         then Some (Z.lor (Z.shiftl (byte_at data 2) 8) (byte_at data 1))
         else None.

(** The reference function of the specification, written from its words:
    fewer than two bytes give nothing; bit 0 of byte 0 clear gives byte 1;
    bit 0 set gives the little-endian 16-bit value of bytes 1-2 when there
    is a third byte and nothing otherwise. *)
Definition parse_heart_rate_ref (bytes : list byte) : option Z :=
  match bytes with
  | [] | [_] => None
  | b0 :: b1 :: rest =>
      let v1 := Z.of_N (Byte.to_N b1) in
      if Z.testbit (Z.of_N (Byte.to_N b0)) 0 then
        match rest with
        | [] => None
        | b2 :: _ => Some (Z.lor (Z.shiftl (Z.of_N (Byte.to_N b2)) 8) v1)
        end
      else Some v1
  end.

Section App.

(** Element type of [devices_found]; the app never builds one. *)
Context {DeviceDescriptor : Type}.

(** Result of the guarded [import bluetooth], lines 5-9. *)
Variable BLUETOOTH_AVAILABLE : bool.

(** ** State *)

Record AppState : Type := mkState {
  heart_rate : Z;
  is_connected : bool;
  is_scanning : bool;
  scan_start : Z;
  scan_duration : Z;
  hr_update_time : Z;
  devices_found : list DeviceDescriptor
}.

(** The dict literal of lines 18-26. *)
Definition state : AppState := {|
  heart_rate := 0;
  is_connected := false;
  is_scanning := false;
  scan_start := 0;
  scan_duration := 3000;
  hr_update_time := 0;
  devices_found := []
|}.

(** [state[k] = v], one setter per key that is ever assigned. *)
Definition set_heart_rate (v : Z) (s : AppState) : AppState :=
  mkState v (is_connected s) (is_scanning s) (scan_start s)
          (scan_duration s) (hr_update_time s) (devices_found s).

Definition set_is_connected (v : bool) (s : AppState) : AppState :=
  mkState (heart_rate s) v (is_scanning s) (scan_start s)
          (scan_duration s) (hr_update_time s) (devices_found s).

Definition set_is_scanning (v : bool) (s : AppState) : AppState :=
  mkState (heart_rate s) (is_connected s) v (scan_start s)
          (scan_duration s) (hr_update_time s) (devices_found s).

Definition set_scan_start (v : Z) (s : AppState) : AppState :=
  mkState (heart_rate s) (is_connected s) (is_scanning s) v
          (scan_duration s) (hr_update_time s) (devices_found s).

Definition set_hr_update_time (v : Z) (s : AppState) : AppState :=
  mkState (heart_rate s) (is_connected s) (is_scanning s) (scan_start s)
          (scan_duration s) v (devices_found s).

Definition set_devices_found (v : list DeviceDescriptor) (s : AppState)
  : AppState :=
  mkState (heart_rate s) (is_connected s) (is_scanning s) (scan_start s)
          (scan_duration s) (hr_update_time s) v.

(** ** Helpers of the update loop *)

(** [_start_scan()], lines 33-39; [io_ticks] is the value of [io.ticks]. *)
Definition _start_scan (io_ticks : Z) (s : AppState) : AppState :=
  if negb BLUETOOTH_AVAILABLE then s
  else
    set_devices_found []
      (set_scan_start io_ticks
         (set_is_scanning true s)).

(** [_simulate_hr_reading()], lines 60-68. *)
Definition _simulate_hr_reading (io_ticks : Z) (s : AppState) : AppState :=
  let now := io_ticks in
  if now - hr_update_time s >=? 500 then
    let base_hr := 72 in
    let variation := py_int (sin (IZR now / 1000) * 8) in
    set_hr_update_time now
      (set_heart_rate (base_hr + variation) s)
  else s.

(** [_simulate_hr_reading()], lines 60-68, over the float sine:
    [math_sin_ms now] is the float that [math.sin(now / 1000.0)] returns,
    seen as a real number.  Multiplying a float by 8 is exact, and [int]
    truncates it exactly. *)
Definition _simulate_hr_reading_with (math_sin_ms : Z -> R) (io_ticks : Z)
    (s : AppState) : AppState :=
  let now := io_ticks in
  if now - hr_update_time s >=? 500 then
    let base_hr := 72 in
    let variation := py_int (math_sin_ms now * 8) in
    set_hr_update_time now
      (set_heart_rate (base_hr + variation) s)
  else s.

(** Button A, lines 96-103. *)
Definition handle_button_a (f : Frame) (s : AppState) : AppState :=
  if is_pressed BUTTON_A (pressed f) then
    if negb (is_connected s) && negb (is_scanning s) then
      _start_scan (ticks f) s
    else if is_connected s then
      set_heart_rate 0 (set_is_connected false s)
    else s
  else s.

(** Scan timeout, lines 115-121. *)
Definition scan_timeout (now : Z) (s : AppState) : AppState :=
  if is_scanning s then
    let elapsed := now - scan_start s in
    if elapsed >=? scan_duration s then
      set_hr_update_time now
        (set_is_connected true
           (set_is_scanning false s))
    else s
  else s.

(** Heart-rate refresh while connected, lines 124-125. *)
Definition refresh_hr (now : Z) (s : AppState) : AppState :=
  if is_connected s then _simulate_hr_reading now s else s.

(** ** Lifecycle hooks *)

(** [update()], lines 86-156: the returned flag and the state it leaves. *)
Definition update (f : Frame) (s : AppState) : bool * AppState :=
  let s1 := handle_button_a f s in
  if is_pressed BUTTON_HOME (pressed f) then (false, s1)
  else
    let now := ticks f in
    let s2 := scan_timeout now s1 in
    let s3 := refresh_hr now s2 in
    (true, s3).

(** [init()], lines 159-161. *)
Definition init (s : AppState) : AppState := s.

(** [on_exit()], lines 164-169. *)
Definition on_exit (s : AppState) : AppState :=
  set_heart_rate 0
    (set_is_scanning false
       (set_is_connected false s)).

(** ** Runs of the host *)

Inductive Call : Type :=
| call_init
| call_update (f : Frame)
| call_on_exit.

Definition step (s : AppState) (c : Call) : AppState :=
  match c with
  | call_init => init s
  | call_update f => snd (update f s)
  | call_on_exit => on_exit s
  end.

(** The state after the calls of [cs], made in order from [s]. *)
Definition run (cs : list Call) (s : AppState) : AppState :=
  fold_left step cs s.

(** A frame in which no button is pressed. *)
Definition idle_frame (t : Z) : Frame := mkFrame [] t.

(** A frame in which only the action button is pressed. *)
Definition press_a (t : Z) : Frame := mkFrame [BUTTON_A] t.

(** One button-free [update] per tick of [ts]. *)
Definition idle_frames (ts : list Z) : list Call :=
  map (fun t => call_update (idle_frame t)) ts.

(** The two data invariants of the state record. *)
Definition consistent (s : AppState) : Prop :=
  is_connected s && is_scanning s = false
  /\ (is_connected s = false -> heart_rate s = 0).

End App.

Arguments AppState : clear implicits.

(** The state of a scan that has been running since tick 0. *)
Definition scanning_since_0 : AppState unit :=
  mkState 0 false true 0 3000 0 [].

(** ** The screen

    What a frame sends to the host display, in order.  [measure_text] is
    answered by the host from the loaded font. *)

(** [brushes.color(r, g, b)] *)
Inductive Brush : Set := color (r g b : Z).

(** Lines 12-15. *)
Definition BACKGROUND : Brush := color 20 20 40.
Definition FOREGROUND : Brush := color 255 255 255.
Definition HIGHLIGHT : Brush := color 255 100 100.
Definition CONNECTING : Brush := color 255 200 0.

Inductive Shape : Set :=
| circle (x y r : Z)
| regular_polygon (x y r sides : Z)
| rectangle (x y w h : Z).

Inductive ScreenOp : Set :=
| op_brush (b : Brush)
| op_clear
| op_font (path : string)
| op_draw (sh : Shape)
| op_text (t : string) (x y : Z).

(** [str(n)] of an integer, as an f-string prints it. *)
Definition py_str (n : Z) : string := NilZero.string_of_int (Z.to_int n).

(** [c * n] of a string and an integer. *)
Fixpoint string_repeat (c : string) (n : nat) : string :=
  match n with
  | O => EmptyString
  | S k => (c ++ string_repeat c k)%string
  end.

(** [r_scaled] of [draw_heart_icon], lines 73-77. *)
Definition heart_radius (size : Z) (pulse : R) : Z :=
  let scale := (1 + pulse * (3 / 10))%R in
  let r := size in
  Z.max 1 (py_int (IZR r * scale)).

(** [draw_heart_icon(x, y, size, pulse)], lines 71-83. *)
Definition draw_heart_icon (x y size : Z) (pulse : R) : list ScreenOp :=
  let cx := x in
  let cy := y in
  let r_scaled := heart_radius size pulse in
  let ox := r_scaled / 2 in
  [ op_brush HIGHLIGHT;
    op_draw (circle (cx - ox) (cy - ox) r_scaled);
    op_draw (circle (cx + ox) (cy - ox) r_scaled);
    op_draw (regular_polygon cx (cy + r_scaled / 2) r_scaled 3) ].

(** Number of dots after "Scanning", lines 143-144. *)
Definition scan_dots (now scan_start : Z) : Z :=
  let elapsed := (now - scan_start) / 500 in
  elapsed mod 4 + 1.

(** [progress_bar_w], lines 146-147; the float division raises
    ZeroDivisionError on a zero duration, which is [None]. *)
Definition progress_bar_w (now scan_start scan_duration : Z) : option Z :=
  if scan_duration =? 0 then None
  else
    let progress := (IZR (now - scan_start) / IZR scan_duration)%R in
    Some (py_int (140 * progress)).

(** What one call of [update] leaves behind on the host side: the screen
    operations it issued and the value it returned, [None] when it raised
    ZeroDivisionError instead of returning. *)
Record FrameOut : Type := mkOut {
  ops : list ScreenOp;
  returned : option bool
}.

Section Screen.

Context {DeviceDescriptor : Type}.
Variable BLUETOOTH_AVAILABLE : bool.

(** [screen.measure_text(text)] *)
Variable measure_text : string -> Z * Z.

(** Lines 89-93. *)
Definition frame_prologue : list ScreenOp :=
  [ op_brush BACKGROUND; op_clear;
    op_font "/system/assets/fonts/nope.ppf" ].

(** Lines 109-110. *)
Definition frame_title : list ScreenOp :=
  [ op_brush FOREGROUND; op_text "Heart Rate Monitor" 10 10 ].

(** The connected view, lines 127-139, on the state [s] that
    [_simulate_hr_reading] has left. *)
Definition connected_view (now : Z) (s : AppState DeviceDescriptor)
  : list ScreenOp :=
  let pulse := Rabs (sin (IZR now / 300)) in
  let hr_text := (py_str (heart_rate s) ++ " BPM")%string in
  let text_width := fst (measure_text hr_text) in
  draw_heart_icon 80 50 15 pulse
  ++ [ op_brush HIGHLIGHT;
       op_text hr_text (80 - text_width / 2) 75;
       op_brush FOREGROUND;
       op_text "Connected" 10 90;
       op_text "Press A: disconnect" 10 105 ].

(** The scanning view, lines 141-149, and whether it got to its end. *)
Definition scanning_view (now : Z) (s : AppState DeviceDescriptor)
  : list ScreenOp * bool :=
  let dots := string_repeat "." (Z.to_nat (scan_dots now (scan_start s))) in
  let head := [ op_brush CONNECTING;
                op_text ("Scanning" ++ dots)%string 10 50 ] in
  match progress_bar_w now (scan_start s) (scan_duration s) with
  | None => (head, false)
  | Some w =>
      (head ++ [ op_brush HIGHLIGHT; op_draw (rectangle 10 70 w 5) ], true)
  end.

(** The idle view, lines 151-154. *)
Definition idle_view : list ScreenOp :=
  [ op_brush FOREGROUND;
    op_text "Press A to scan" 10 50;
    op_text "for BLE device" 10 65 ].

(** [update()], lines 86-156, with its screen operations. *)
Definition update_screen (f : Frame) (s : AppState DeviceDescriptor)
  : FrameOut * AppState DeviceDescriptor :=
  let s1 := handle_button_a BLUETOOTH_AVAILABLE f s in
  if is_pressed BUTTON_HOME (pressed f) then
    (mkOut frame_prologue (Some false), s1)
  else
    let now := ticks f in
    let s2 := scan_timeout now s1 in
    if is_connected s2 then
      let s3 := _simulate_hr_reading now s2 in
      (mkOut (frame_prologue ++ frame_title ++ connected_view now s3)
             (Some true), s3)
    else if is_scanning s2 then
      let (view, finished) := scanning_view now s2 in
      (mkOut (frame_prologue ++ frame_title ++ view)
             (if finished then Some true else None), s2)
    else
      (mkOut (frame_prologue ++ frame_title ++ idle_view) (Some true), s2).

End Screen.

(** * Properties *)

(** ** Buttons *)

Lemma Button_eqb_eq (a b : Button) : Button_eqb a b = true <-> a = b.
Proof. destruct a, b; cbn; split; congruence. Qed.

Lemma is_pressed_In (b : Button) (l : list Button) :
  is_pressed b l = true <-> In b l.
Proof.
  unfold is_pressed. rewrite existsb_exists. split.
  - intros [x [Hin Heq]]. apply Button_eqb_eq in Heq. now subst.
  - intros Hin. exists b. split; [assumption | now apply Button_eqb_eq].
Qed.

Lemma is_pressed_not_In (b : Button) (l : list Button) :
  ~ In b l -> is_pressed b l = false.
Proof.
  intros Hn. destruct (is_pressed b l) eqn:E; [| reflexivity].
  apply is_pressed_In in E. contradiction.
Qed.

(** ** Truncation and the sine *)

Lemma py_int_range (x : R) (n : Z) :
  (- IZR n <= x <= IZR n)%R -> - n <= py_int x <= n.
Proof.
  intros [Hlo Hhi]. unfold py_int.
  destruct (Rle_dec 0 x) as [Hx | Hx].
  - destruct (base_Int_part x) as [H1 H2]. split.
    + assert (H : (IZR (- n - 1) < IZR (Int_part x))%R)
        by (rewrite minus_IZR, opp_IZR; lra).
      apply lt_IZR in H. lia.
    + apply le_IZR. lra.
  - destruct (base_Int_part (- x)) as [H1 H2].
    assert (Hle : (IZR (Int_part (- x)) <= IZR n)%R) by lra.
    assert (Hgt : (IZR (- 1) < IZR (Int_part (- x)))%R) by lra.
    apply le_IZR in Hle. apply lt_IZR in Hgt. lia.
Qed.

(** On a non-negative float, [int] is the floor. *)
Lemma py_int_floor (x : R) (k : Z) :
  (0 <= x)%R -> (IZR k <= x < IZR k + 1)%R -> py_int x = k.
Proof.
  intros Hx [Hlo Hhi]. unfold py_int.
  destruct (Rle_dec 0 x) as [_ | Hn]; [| contradiction].
  symmetry. apply Int_part_spec. lra.
Qed.

(** [int(math.sin(now / 1000.0) * 8)] never leaves [-8, 8]. *)
Lemma variation_range (now : Z) :
  - 8 <= py_int (sin (IZR now / 1000) * 8) <= 8.
Proof.
  apply (py_int_range _ 8). pose proof (SIN_bound (IZR now / 1000)). lra.
Qed.

(** 0.8125 < sin 1 < 0.875, from the alternating series of the sine. *)
Lemma sin_1_bounds : (13 / 16 < sin 1 < 7 / 8)%R.
Proof.
  assert (Hpi : (1 <= PI)%R) by (pose proof PI2_1; lra).
  destruct (sin_bound 1 0 ltac:(lra) Hpi) as [Hlo Hhi].
  unfold sin_approx, sin_term in Hlo, Hhi.
  cbn [sum_f_R0 Nat.mul Nat.add] in Hlo, Hhi.
  rewrite (INR_IZR_INZ (fact 1)), (INR_IZR_INZ (fact 3)) in Hlo, Hhi.
  rewrite (INR_IZR_INZ (fact 5)) in Hhi.
  change (Z.of_nat (fact 1)) with 1 in Hlo, Hhi.
  change (Z.of_nat (fact 3)) with 6 in Hlo, Hhi.
  change (Z.of_nat (fact 5)) with 120 in Hhi.
  cbn [pow] in Hlo, Hhi.
  lra.
Qed.

(** At tick 1000 the truncated variation is 6 ... *)
Lemma variation_at_1000 : py_int (sin (IZR 1000 / 1000) * 8) = 6.
Proof.
  replace (IZR 1000 / 1000)%R with 1%R by lra.
  pose proof sin_1_bounds. apply py_int_floor; lra.
Qed.

(** ... whereas every nearest integer of the product is 7. *)
Lemma nearest_at_1000 (r : Z) :
  nearest r (sin (IZR 1000 / 1000) * 8) -> r = 7.
Proof.
  unfold nearest. replace (IZR 1000 / 1000)%R with 1%R by lra.
  pose proof sin_1_bounds as Hs. intros Hr.
  assert (H6 : (IZR 6 < IZR r)%R)
    by (unfold Rabs in Hr; destruct (Rcase_abs _) in Hr; lra).
  assert (H8 : (IZR r < IZR 8)%R)
    by (unfold Rabs in Hr; destruct (Rcase_abs _) in Hr; lra).
  apply lt_IZR in H6. apply lt_IZR in H8. lia.
Qed.

(** ** Bit 0 of the flags byte *)

Lemma land_1_eqb (a : Z) : (Z.land a 1 =? 0) = negb (Z.testbit a 0).
Proof.
  change 1 with (Z.ones 1) at 1.
  rewrite Z.land_ones by lia. change (2 ^ 1) with 2.
  rewrite <- Z.bit0_mod. now destruct (Z.testbit a 0).
Qed.

(** The 16-bit format is little-endian: low byte at index 1, high byte at
    index 2. *)
Lemma lor_shiftl_8 (hi lo : Z) :
  0 <= lo < 256 -> Z.lor (Z.shiftl hi 8) lo = lo + 256 * hi.
Proof.
  intros Hlo.
  assert (Hland : Z.land (Z.shiftl hi 8) lo = 0).
  { apply Z.bits_inj'. intros n Hn. rewrite Z.land_spec, Z.bits_0.
    destruct (Z.lt_ge_cases n 8) as [Hlt | Hge].
    - now rewrite Z.shiftl_spec_low.
    - rewrite <- (Z.mod_small lo (2 ^ 8)) by lia.
      rewrite Z.mod_pow2_bits_high by lia. apply andb_false_r. }
  rewrite <- Z.lxor_lor, <- Z.add_nocarry_lxor by exact Hland.
  rewrite Z.shiftl_mul_pow2 by lia. lia.
Qed.

Lemma byte_at_range (data : list byte) (i : nat) : 0 <= byte_at data i < 256.
Proof.
  unfold byte_at. pose proof (to_N_bounded (nth i data "000"%byte)). lia.
Qed.

Lemma parse_heart_rate_16bit (b0 b1 b2 : byte) (rest : list byte) :
  Z.testbit (Z.of_N (to_N b0)) 0 = true ->
  _parse_heart_rate (b0 :: b1 :: b2 :: rest)
  = Some (Z.of_N (to_N b1) + 256 * Z.of_N (to_N b2)).
Proof.
  intros Hbit. unfold _parse_heart_rate.
  replace (Z.of_nat (length (b0 :: b1 :: b2 :: rest)) <? 2) with false
    by (symmetry; apply Z.ltb_ge; cbn [length]; lia).
  replace (Z.of_nat (length (b0 :: b1 :: b2 :: rest)) >=? 3) with true
    by (symmetry; apply Z.geb_le; cbn [length]; lia).
  cbn [orb]. rewrite land_1_eqb.
  unfold byte_at at 1. cbn [nth]. rewrite Hbit. cbn [negb].
  rewrite lor_shiftl_8 by apply byte_at_range. reflexivity.
Qed.

(** ** Single steps of the state machine *)

Ltac case_if :=
  match goal with
  | |- context [if ?b then _ else _] => destruct b eqn:?
  end.

Ltac geb_lia :=
  repeat match goal with
  | H : (_ >=? _) = true |- _ => apply Z.geb_le in H
  | H : (_ >=? _) = false |- _ => rewrite Z.geb_leb in H; apply Z.leb_gt in H
  end; lia.

Section StateMachine.

Context {D : Type}.
Implicit Types (s : AppState D) (f : Frame) (bt : bool).

Lemma scan_timeout_fires now s :
  is_scanning s = true -> now - scan_start s >= scan_duration s ->
  scan_timeout now s =
  mkState (heart_rate s) true false (scan_start s) (scan_duration s) now
          (devices_found s).
Proof.
  intros Hs He. unfold scan_timeout. rewrite Hs. cbv zeta.
  case_if; [reflexivity | geb_lia].
Qed.

Lemma scan_timeout_waits now s :
  is_scanning s = true -> now - scan_start s < scan_duration s ->
  scan_timeout now s = s.
Proof.
  intros Hs He. unfold scan_timeout. rewrite Hs. cbv zeta.
  case_if; [geb_lia | reflexivity].
Qed.

Lemma simulate_fires now s :
  now - hr_update_time s >= 500 ->
  _simulate_hr_reading now s =
  mkState (72 + py_int (sin (IZR now / 1000) * 8)) (is_connected s)
          (is_scanning s) (scan_start s) (scan_duration s) now
          (devices_found s).
Proof.
  intros He. unfold _simulate_hr_reading. cbv zeta.
  case_if; [reflexivity | geb_lia].
Qed.

Lemma simulate_waits now s :
  now - hr_update_time s < 500 -> _simulate_hr_reading now s = s.
Proof.
  intros He. unfold _simulate_hr_reading. cbv zeta.
  case_if; [geb_lia | reflexivity].
Qed.

(** Button A from the idle state, Bluetooth present. *)
Lemma update_start_scan f s :
  In BUTTON_A (pressed f) ->
  is_connected s = false -> is_scanning s = false ->
  0 < scan_duration s ->
  snd (update true f s) =
  mkState (heart_rate s) false true (ticks f) (scan_duration s)
          (hr_update_time s) [].
Proof.
  intros HA Hc Hs Hd. apply is_pressed_In in HA.
  destruct s as [hr c sc ss sd ut dv]; cbn in Hc, Hs, Hd; subst c sc.
  unfold update, handle_button_a, _start_scan. rewrite HA. cbn.
  case_if; [reflexivity |].
  cbn. unfold scan_timeout. cbn. rewrite Z.sub_diag.
  case_if; [geb_lia | reflexivity].
Qed.

(** Whatever the buttons but HOME, a scanning frame is the timeout check. *)
Lemma update_while_scanning bt f s :
  is_scanning s = true -> is_connected s = false ->
  ~ In BUTTON_HOME (pressed f) ->
  update bt f s = (true, scan_timeout (ticks f) s).
Proof.
  intros Hs Hc HH. apply is_pressed_not_In in HH.
  unfold update, handle_button_a. rewrite HH, Hs, Hc. cbn [negb andb].
  replace (if is_pressed BUTTON_A (pressed f) then s else s) with s
    by now destruct (is_pressed BUTTON_A (pressed f)).
  f_equal. unfold refresh_hr, scan_timeout. rewrite Hs. cbv zeta.
  destruct (ticks f - scan_start s >=? scan_duration s);
    cbn [is_connected set_hr_update_time set_is_connected].
  - unfold _simulate_hr_reading. cbn. rewrite Z.sub_diag. reflexivity.
  - now rewrite Hc.
Qed.

(** A button-free frame while connected is the heart-rate refresh. *)
Lemma update_while_connected bt f s :
  is_connected s = true -> is_scanning s = false ->
  ~ In BUTTON_A (pressed f) -> ~ In BUTTON_HOME (pressed f) ->
  update bt f s = (true, _simulate_hr_reading (ticks f) s).
Proof.
  intros Hc Hs HA HH.
  apply is_pressed_not_In in HA. apply is_pressed_not_In in HH.
  unfold update, handle_button_a. rewrite HA, HH.
  unfold scan_timeout, refresh_hr. now rewrite Hs, Hc.
Qed.

(** Button A while connected: back to IDLE with the reading cleared. *)
Lemma update_disconnect bt f s :
  In BUTTON_A (pressed f) ->
  is_connected s = true -> is_scanning s = false ->
  snd (update bt f s) =
  mkState 0 false false (scan_start s) (scan_duration s) (hr_update_time s)
          (devices_found s).
Proof.
  intros HA Hc Hs. apply is_pressed_In in HA.
  destruct s as [hr c sc ss sd ut dv]; cbn in Hc, Hs; subst c sc.
  unfold update, handle_button_a. rewrite HA. cbn.
  now case_if.
Qed.

(** Without Bluetooth an idle state is a fixed point of [update]. *)
Lemma update_idle_no_bluetooth f s :
  is_connected s = false -> is_scanning s = false ->
  snd (update false f s) = s.
Proof.
  intros Hc Hs. unfold update, handle_button_a, _start_scan.
  rewrite Hc, Hs. cbn [negb andb].
  replace (if is_pressed BUTTON_A (pressed f) then s else s) with s
    by now destruct (is_pressed BUTTON_A (pressed f)).
  case_if; [reflexivity |].
  unfold scan_timeout, refresh_hr. now rewrite Hs, Hc.
Qed.

(** ** Runs *)

Lemma run_cons bt c cs s : run bt (c :: cs) s = run bt cs (step bt s c).
Proof. reflexivity. Qed.

Lemma run_app bt cs cs' s : run bt (cs ++ cs') s = run bt cs' (run bt cs s).
Proof. apply fold_left_app. Qed.

Lemma run_scanning_wait bt ts s :
  is_scanning s = true -> is_connected s = false ->
  Forall (fun u => u - scan_start s < scan_duration s) ts ->
  run bt (idle_frames ts) s = s.
Proof.
  intros Hs Hc Hall. induction Hall as [| u ts Hu _ IH]; [reflexivity |].
  cbn [idle_frames map]. rewrite run_cons. cbn [step].
  rewrite update_while_scanning by (assumption || (cbn; tauto)).
  cbn [snd ticks idle_frame].
  rewrite scan_timeout_waits by assumption. exact IH.
Qed.

Lemma run_connected_wait bt ts s :
  is_connected s = true -> is_scanning s = false ->
  Forall (fun u => u - hr_update_time s < 500) ts ->
  run bt (idle_frames ts) s = s.
Proof.
  intros Hc Hs Hall. induction Hall as [| u ts Hu _ IH]; [reflexivity |].
  cbn [idle_frames map]. rewrite run_cons. cbn [step].
  rewrite update_while_connected by (assumption || (cbn; tauto)).
  cbn [snd ticks idle_frame].
  rewrite simulate_waits by assumption. exact IH.
Qed.

(** ** The invariants are inductive *)

Lemma state_consistent : consistent (@state D).
Proof. split; reflexivity. Qed.

Lemma step_consistent bt s c : consistent s -> consistent (step bt s c).
Proof.
  destruct s as [hr c0 sc ss sd ut dv]. unfold consistent. cbn.
  intros [Hx Hz]. destruct c as [| f |]; cbn.
  - auto.
  - unfold update, handle_button_a, _start_scan, scan_timeout, refresh_hr,
      _simulate_hr_reading.
    destruct c0, sc, bt; try discriminate Hx; cbn;
      repeat (case_if; cbn); split; intros; auto; discriminate.
  - auto.
Qed.

Lemma run_consistent bt cs s : consistent s -> consistent (run bt cs s).
Proof.
  revert s. induction cs as [| c cs IH]; intros s Hs; [exact Hs |].
  rewrite run_cons. apply IH. now apply step_consistent.
Qed.

(** From a started scan, button-free frames reach CONNECTED on the first
    frame at or past the scan duration, and that frame takes no reading. *)
Lemma run_scan_to_connected s0 t0 pre t :
  is_connected s0 = false -> is_scanning s0 = false ->
  0 < scan_duration s0 ->
  Forall (fun u => u - t0 < scan_duration s0) pre ->
  t - t0 >= scan_duration s0 ->
  run true (call_update (press_a t0)
              :: idle_frames pre ++ [call_update (idle_frame t)]) s0 =
  mkState (heart_rate s0) true false t0 (scan_duration s0) t [].
Proof.
  intros Hc Hs Hd Hpre Ht.
  rewrite run_cons. cbn [step].
  rewrite update_start_scan by (assumption || (cbn; tauto)).
  cbn [press_a ticks]. rewrite run_app.
  rewrite run_scanning_wait by (reflexivity || exact Hpre).
  rewrite run_cons. cbn [step run fold_left].
  rewrite update_while_scanning by (reflexivity || (cbn; tauto)).
  cbn [snd idle_frame ticks].
  now rewrite scan_timeout_fires by (reflexivity || exact Ht).
Qed.

Lemma run_idle_no_bluetooth cs s :
  is_connected s = false -> is_scanning s = false ->
  is_connected (run false cs s) = false
  /\ is_scanning (run false cs s) = false.
Proof.
  revert s. induction cs as [| c cs IH]; intros s Hc Hs; [now split |].
  rewrite run_cons. destruct c as [| f |]; cbn [step].
  - now apply IH.
  - rewrite update_idle_no_bluetooth by assumption. now apply IH.
  - now apply IH.
Qed.

(** The simulation the state machine runs on is the instance at the real
    sine. *)
Lemma simulate_hr_reading_real now s :
  _simulate_hr_reading now s
  = _simulate_hr_reading_with (fun t => sin (IZR t / 1000)) now s.
Proof. reflexivity. Qed.

(** When the float sine is exactly -1 the variation is -8, and the stored
    heart rate 64. *)
Lemma variation_at_minus_one : py_int (- 1 * 8) = - 8.
Proof.
  unfold py_int. destruct (Rle_dec 0 (- 1 * 8)) as [H | _]; [lra |].
  rewrite <- (Int_part_spec (- (- 1 * 8)) 8) by lra. reflexivity.
Qed.

(** ** The claims on the state machine *)

(** C1 (amended). When [BLUETOOTH_AVAILABLE] is true and the scan duration
    is positive (it is fixed at 3000), every [update] whose frame has
    [BUTTON_A] pressed while the app is neither connected nor scanning sets
    [is_scanning] to true, [scan_start] to the tick of the frame and
    [devices_found] to the empty list, and leaves the other fields as they
    were: the IDLE to SCANNING transition. *)
Theorem start_scan_transition bt f s :
  bt = true ->
  In BUTTON_A (pressed f) ->
  is_connected s = false -> is_scanning s = false ->
  0 < scan_duration s ->
  let s' := snd (update bt f s) in
  is_scanning s' = true /\ scan_start s' = ticks f /\ devices_found s' = []
  /\ is_connected s' = false /\ heart_rate s' = heart_rate s
  /\ scan_duration s' = scan_duration s
  /\ hr_update_time s' = hr_update_time s.
Proof.
  intros -> HA Hc Hs Hd. cbv zeta.
  rewrite update_start_scan by assumption. cbn. tauto.
Qed.

(** C2 (amended). A run that starts a scan at tick [t0] from an idle state
    (Bluetooth present, positive scan duration) and then sees button-free
    frames is connected after the first frame [t] with
    [t - t0 >= scan_duration], with [hr_update_time = t] and [is_scanning]
    false; that frame leaves [heart_rate] as it was.  The first reading is
    taken by the first later frame [g] with [g - t >= 500]: it lies in
    [64, 80] and stamps [hr_update_time = g]. *)
Theorem scan_completes_then_reads s0 t0 pre t :
  is_connected s0 = false -> is_scanning s0 = false ->
  0 < scan_duration s0 ->
  Forall (fun u => u - t0 < scan_duration s0) pre ->
  t - t0 >= scan_duration s0 ->
  let cs := call_update (press_a t0)
              :: idle_frames pre ++ [call_update (idle_frame t)] in
  run true cs s0 =
    mkState (heart_rate s0) true false t0 (scan_duration s0) t []
  /\ forall mid g,
       Forall (fun u => u - t < 500) mid -> g - t >= 500 ->
       let s2 :=
         run true (cs ++ idle_frames mid ++ [call_update (idle_frame g)]) s0
       in
       is_connected s2 = true /\ is_scanning s2 = false
       /\ hr_update_time s2 = g /\ 64 <= heart_rate s2 <= 80.
Proof.
  intros Hc Hs Hd Hpre Ht cs.
  assert (E : run true cs s0 =
              mkState (heart_rate s0) true false t0 (scan_duration s0) t [])
    by now apply run_scan_to_connected.
  split; [exact E |].
  intros mid g Hmid Hg. cbv zeta.
  rewrite run_app, E, run_app.
  rewrite run_connected_wait by (reflexivity || exact Hmid).
  cbn [run fold_left step].
  rewrite update_while_connected by (reflexivity || (cbn; tauto)).
  cbn [snd idle_frame ticks].
  rewrite simulate_fires by exact Hg.
  cbn [is_connected is_scanning hr_update_time heart_rate].
  pose proof (variation_range g). repeat split; lia.
Qed.

(** C3 (amended). In a frame that starts in a scanning state
    ([is_scanning] true and, as in every reachable state, [is_connected]
    false) and in which HOME is not pressed, [update] performs exactly
    [is_scanning := false; is_connected := true; hr_update_time := now]
    when [now - scan_start >= scan_duration], and leaves the state as it is
    when [now - scan_start < scan_duration].  A frame with HOME pressed
    returns before the timeout check and leaves the scanning state as it
    is, whatever the elapsed time. *)
Theorem scan_timeout_transition bt f s :
  is_scanning s = true -> is_connected s = false ->
  let now := ticks f in
  let s' := snd (update bt f s) in
  (~ In BUTTON_HOME (pressed f) ->
   now - scan_start s >= scan_duration s ->
   s' = mkState (heart_rate s) true false (scan_start s) (scan_duration s)
                now (devices_found s))
  /\ (~ In BUTTON_HOME (pressed f) ->
      now - scan_start s < scan_duration s -> s' = s)
  /\ (In BUTTON_HOME (pressed f) -> s' = s).
Proof.
  intros Hs Hc. cbv zeta. repeat split.
  - intros HH He. rewrite update_while_scanning by assumption.
    now apply scan_timeout_fires.
  - intros HH He. rewrite update_while_scanning by assumption.
    now apply scan_timeout_waits.
  - intros HH. apply is_pressed_In in HH.
    unfold update, handle_button_a. rewrite HH, Hs, Hc. cbn [negb andb snd].
    now destruct (is_pressed BUTTON_A (pressed f)).
Qed.

(** C5. After any sequence of [init], [update] and [on_exit] calls from the
    initial state, [is_connected] and [is_scanning] are not both true. *)
Theorem connected_scanning_exclusive bt (cs : list Call) :
  let s := run bt cs (@state D) in
  is_connected s && is_scanning s = false.
Proof.
  cbv zeta. now destruct (run_consistent bt cs _ state_consistent).
Qed.

(** C6. After any sequence of [init], [update] and [on_exit] calls from the
    initial state, [heart_rate] is 0 whenever [is_connected] is false. *)
Theorem disconnected_heart_rate_zero bt (cs : list Call) :
  let s := run bt cs (@state D) in
  is_connected s = false -> heart_rate s = 0.
Proof.
  cbv zeta. now destruct (run_consistent bt cs _ state_consistent).
Qed.

(** C7 (amended). When [now - hr_update_time >= 500] the simulation sets
    [heart_rate] to 72 plus [v * 8] truncated toward zero (not rounded to
    nearest), where [v] is the float returned by [math.sin(now / 1000.0)],
    any value in [-1, 1]; it sets [hr_update_time] to [now] and leaves the
    other fields as they were; the new heart rate lies in [64, 80]. *)
Theorem simulate_hr_recomputes (math_sin_ms : Z -> R) now s :
  (- 1 <= math_sin_ms now <= 1)%R ->
  now - hr_update_time s >= 500 ->
  let s' := _simulate_hr_reading_with math_sin_ms now s in
  s' = mkState (72 + py_int (math_sin_ms now * 8)) (is_connected s)
               (is_scanning s) (scan_start s) (scan_duration s) now
               (devices_found s)
  /\ 64 <= heart_rate s' <= 80.
Proof.
  intros Hv He. cbv zeta. unfold _simulate_hr_reading_with. cbv zeta.
  replace (now - hr_update_time s >=? 500) with true
    by (symmetry; apply Z.geb_le; lia).
  split; [reflexivity |].
  cbn [heart_rate set_hr_update_time set_heart_rate].
  assert (Hr : - 8 <= py_int (math_sin_ms now * 8) <= 8)
    by (apply (py_int_range _ 8); lra).
  lia.
Qed.

(** C8. The simulation changes [heart_rate] or [hr_update_time] only when
    [now - hr_update_time >= 500] and never touches another field; when
    [now - hr_update_time < 500] the whole state is unchanged, so a further
    call inside the 500 ms window that follows a call is a no-op. *)
Theorem simulate_hr_frame now s :
  let s' := _simulate_hr_reading now s in
  (now - hr_update_time s < 500 -> s' = s)
  /\ (heart_rate s' <> heart_rate s \/ hr_update_time s' <> hr_update_time s
      -> now - hr_update_time s >= 500)
  /\ (is_connected s' = is_connected s /\ is_scanning s' = is_scanning s
      /\ scan_start s' = scan_start s /\ scan_duration s' = scan_duration s
      /\ devices_found s' = devices_found s)
  /\ (forall now', now' - hr_update_time s' < 500 ->
        _simulate_hr_reading now' s' = s')
  /\ _simulate_hr_reading now s' = s'.
Proof.
  cbv zeta. destruct (Z_lt_ge_dec (now - hr_update_time s) 500) as [Hlt | Hge].
  - rewrite (simulate_waits now s Hlt). repeat split; try reflexivity.
    + intros [H | H]; now elim H.
    + intros now' H. now apply simulate_waits.
    + now apply simulate_waits.
  - rewrite (simulate_fires now s Hge). repeat split.
    + lia.
    + intros _. exact Hge.
    + intros now' H. now apply simulate_waits.
    + apply simulate_waits. cbn. lia.
Qed.

(** C9. Whatever the state before, after [on_exit] the heart rate is 0 and
    the app is neither connected nor scanning. *)
Theorem on_exit_resets s :
  let s' := on_exit s in
  heart_rate s' = 0 /\ is_connected s' = false /\ is_scanning s' = false.
Proof. cbn. auto. Qed.

(** C10. When [BLUETOOTH_AVAILABLE] is false, an [update] whose frame has
    [BUTTON_A] pressed while the app is neither connected nor scanning
    leaves the whole state unchanged, and no sequence of calls takes the app
    out of the idle state. *)
Theorem no_bluetooth_stays_idle f s :
  is_connected s = false -> is_scanning s = false ->
  (In BUTTON_A (pressed f) -> snd (update false f s) = s)
  /\ (forall cs : list Call,
        is_connected (run false cs s) = false
        /\ is_scanning (run false cs s) = false).
Proof.
  intros Hc Hs. split.
  - intros _. now apply update_idle_no_bluetooth.
  - intros cs. now apply run_idle_no_bluetooth.
Qed.

End StateMachine.

(** ** The claim on the characteristic decoder *)

(** C4. [_parse_heart_rate] equals the reference function on every byte
    sequence; in particular [00 42] gives 66, [01 4B 00] gives 75, and the
    empty sequence and [01] give nothing. *)
Theorem parse_heart_rate_refines :
  (forall data : list byte,
     _parse_heart_rate data = parse_heart_rate_ref data)
  /\ _parse_heart_rate ["000"; "066"]%byte = Some 66
  /\ _parse_heart_rate ["001"; "075"; "000"]%byte = Some 75
  /\ _parse_heart_rate [] = None
  /\ _parse_heart_rate ["001"]%byte = None.
Proof.
  split; [| repeat split; reflexivity].
  intros [| b0 [| b1 rest]]; try reflexivity.
  unfold _parse_heart_rate, parse_heart_rate_ref, byte_at.
  replace (Z.of_nat (length (b0 :: b1 :: rest)) <? 2) with false
    by (symmetry; apply Z.ltb_ge; cbn [length]; lia).
  cbn [orb nth]. rewrite land_1_eqb.
  destruct (Z.testbit (Z.of_N (to_N b0)) 0); cbn [negb]; [| reflexivity].
  destruct rest as [| b2 rest]; [reflexivity |].
  replace (Z.of_nat (length (b0 :: b1 :: b2 :: rest)) >=? 3) with true
    by (symmetry; apply Z.geb_le; cbn [length]; lia).
  reflexivity.
Qed.

(** ** Concrete runs *)

(** C1 fails as stated: without Bluetooth, pressing A at tick 5 in the
    initial state starts no scan. *)
Lemma start_scan_without_bluetooth :
  let f := press_a 5 in
  let s' := snd (update false f (@state unit)) in
  In BUTTON_A (pressed f)
  /\ is_connected (@state unit) = false
  /\ is_scanning (@state unit) = false
  /\ is_scanning s' = false
  /\ scan_start s' <> ticks f.
Proof.
  cbv zeta. split; [now left |]. repeat split. discriminate.
Qed.

Lemma start_scan_transition_witness :
  let s' := snd (update true (press_a 5) (@state unit)) in
  is_scanning s' = true /\ scan_start s' = 5 /\ devices_found s' = []
  /\ is_connected s' = false /\ heart_rate s' = 0
  /\ scan_duration s' = 3000 /\ hr_update_time s' = 0.
Proof.
  apply (start_scan_transition true (press_a 5) state).
  - reflexivity.
  - simpl. left. reflexivity.
  - reflexivity.
  - reflexivity.
  - reflexivity.
Defined.

(** C2 fails as stated: after the frames [press A at 0], 100, 1000, 3001
    the app is connected but [heart_rate] is still 0, outside [64, 80]. *)
Lemma transition_frame_has_no_reading :
  let s := run true (call_update (press_a 0) :: idle_frames [100; 1000; 3001])
               (@state unit) in
  is_connected s = true /\ hr_update_time s = 3001
  /\ heart_rate s = 0 /\ ~ (64 <= heart_rate s <= 80).
Proof.
  vm_compute. repeat split; try reflexivity.
  intros [H _]. apply H. reflexivity.
Qed.

Lemma scan_completes_then_reads_witness :
  run true (call_update (press_a 0) :: idle_frames [100; 1000; 3001])
      (@state unit)
  = mkState 0 true false 0 3000 3001 []
  /\ 64 <= heart_rate
             (run true (call_update (press_a 0)
                          :: idle_frames [100; 1000; 3001; 3200; 3501])
                  (@state unit)) <= 80.
Proof.
  destruct (scan_completes_then_reads (@state unit) 0 [100; 1000] 3001)
    as [E R].
  - reflexivity.
  - reflexivity.
  - reflexivity.
  - repeat constructor.
  - simpl. lia.
  - split; [exact E |].
    apply (R [3200] 3501).
    + repeat constructor.
    + simpl. lia.
Defined.

(** C3 fails as stated: the scan started at tick 0 is overdue at tick
    5000, but a frame with HOME pressed returns before the timeout check and
    the app is still scanning afterwards. *)
Lemma scan_timeout_skipped_on_home :
  let f := mkFrame [BUTTON_HOME] 5000 in
  let s := run true [call_update (press_a 0)] (@state unit) in
  let s' := snd (update true f s) in
  is_scanning s = true
  /\ ticks f - scan_start s >= scan_duration s
  /\ is_scanning s' = true /\ is_connected s' = false
  /\ hr_update_time s' <> ticks f.
Proof.
  cbv zeta. split; [reflexivity |]. split; [simpl; lia |].
  split; [reflexivity |]. split; [reflexivity |].
  simpl. discriminate.
Qed.

Lemma scan_timeout_transition_witness :
  snd (update true (idle_frame 3001) scanning_since_0)
  = mkState 0 true false 0 3000 3001 []
  /\ snd (update true (idle_frame 1000) scanning_since_0) = scanning_since_0
  /\ snd (update true (mkFrame [BUTTON_HOME] 5000) scanning_since_0)
     = scanning_since_0.
Proof.
  split; [| split].
  - destruct (scan_timeout_transition true (idle_frame 3001)
                scanning_since_0) as [H _]; [reflexivity | reflexivity |].
    apply H; [simpl; tauto | simpl; lia].
  - destruct (scan_timeout_transition true (idle_frame 1000)
                scanning_since_0) as [_ [H _]]; [reflexivity | reflexivity |].
    apply H; [simpl; tauto | reflexivity].
  - destruct (scan_timeout_transition true (mkFrame [BUTTON_HOME] 5000)
                scanning_since_0) as [_ [_ H]]; [reflexivity | reflexivity |].
    apply H. simpl. left. reflexivity.
Defined.

Lemma disconnected_heart_rate_zero_witness :
  heart_rate
    (run true [call_update (press_a 0); call_update (idle_frame 3001);
               call_update (idle_frame 3600); call_update (press_a 4000)]
         (@state unit)) = 0.
Proof.
  apply (disconnected_heart_rate_zero true
           [call_update (press_a 0); call_update (idle_frame 3001);
            call_update (idle_frame 3600); call_update (press_a 4000)]).
  reflexivity.
Defined.

(** C7 fails as stated: at tick 1000 the product is about 6.73; the code
    stores 72 + 6 = 78, while every rounding to nearest gives 72 + 7. *)
Lemma simulate_hr_truncates :
  let s' := _simulate_hr_reading 1000 (@state unit) in
  1000 - hr_update_time (@state unit) >= 500
  /\ heart_rate s' = 78
  /\ forall r : Z,
       nearest r (sin (IZR 1000 / 1000) * 8) -> heart_rate s' <> 72 + r.
Proof.
  cbv zeta. assert (H : 1000 - hr_update_time (@state unit) >= 500)
    by (simpl; lia).
  rewrite (simulate_fires 1000 state H). cbn [heart_rate].
  rewrite variation_at_1000. repeat split.
  - exact H.
  - intros r Hr. apply nearest_at_1000 in Hr. subst r. discriminate.
Qed.

Lemma simulate_hr_recomputes_witness :
  let math_sin_ms := fun _ : Z => (- 1)%R in
  let s' := _simulate_hr_reading_with math_sin_ms 138297621 (@state unit) in
  s' = mkState (72 + py_int (- 1 * 8)) false false 0 3000 138297621 []
  /\ 64 <= heart_rate s' <= 80.
Proof.
  apply (simulate_hr_recomputes (fun _ : Z => (- 1)%R) 138297621 state).
  - lra.
  - simpl. lia.
Defined.

Lemma simulate_hr_frame_witness :
  _simulate_hr_reading 499 (@state unit) = state.
Proof.
  destruct (simulate_hr_frame 499 (@state unit)) as [Hsame _].
  apply Hsame. reflexivity.
Defined.

Lemma no_bluetooth_stays_idle_witness :
  snd (update false (press_a 7) (@state unit)) = state.
Proof.
  apply (no_bluetooth_stays_idle (press_a 7) state).
  - reflexivity.
  - reflexivity.
  - simpl. left. reflexivity.
Defined.

(** * Further properties of the code *)

(** ** The decoder, case by case *)

Lemma parse_heart_rate_cons2 (b0 b1 : byte) (rest : list byte) :
  _parse_heart_rate (b0 :: b1 :: rest) =
  if Z.testbit (Z.of_N (to_N b0)) 0 then
    match rest with
    | [] => None
    | b2 :: _ =>
        Some (Z.lor (Z.shiftl (Z.of_N (to_N b2)) 8) (Z.of_N (to_N b1)))
    end
  else Some (Z.of_N (to_N b1)).
Proof.
  unfold _parse_heart_rate, byte_at.
  replace (Z.of_nat (length (b0 :: b1 :: rest)) <? 2) with false
    by (symmetry; apply Z.ltb_ge; cbn [length]; lia).
  cbn [orb nth]. rewrite land_1_eqb.
  destruct (Z.testbit (Z.of_N (to_N b0)) 0); cbn [negb]; [| reflexivity].
  destruct rest as [| b2 rest]; [reflexivity |].
  replace (Z.of_nat (length (b0 :: b1 :: b2 :: rest)) >=? 3) with true
    by (symmetry; apply Z.geb_le; cbn [length]; lia).
  reflexivity.
Qed.

Lemma byte_val_range (b : byte) : 0 <= Z.of_N (to_N b) < 256.
Proof. pose proof (to_N_bounded b). lia. Qed.

(** X1. A value returned by [_parse_heart_rate] is byte 1 (below 256) when
    bit 0 of the flags is clear, and byte 1 plus 256 times byte 2 when it is
    set; in both cases it lies in [0, 65535]. *)
Theorem parse_heart_rate_value (data : list byte) (v : Z) :
  _parse_heart_rate data = Some v ->
  (Z.testbit (byte_at data 0) 0 = false -> v = byte_at data 1 /\ v < 256)
  /\ (Z.testbit (byte_at data 0) 0 = true ->
      v = byte_at data 1 + 256 * byte_at data 2)
  /\ 0 <= v < 65536.
Proof.
  destruct data as [| b0 [| b1 rest]]; try discriminate.
  rewrite parse_heart_rate_cons2. unfold byte_at. cbn [nth].
  pose proof (byte_val_range b1) as H1.
  destruct (Z.testbit (Z.of_N (to_N b0)) 0).
  - destruct rest as [| b2 rest]; [discriminate |].
    intros Hv. cbn [nth]. pose proof (byte_val_range b2) as H2.
    rewrite lor_shiftl_8 in Hv by exact H1.
    assert (Hv' : Z.of_N (to_N b1) + 256 * Z.of_N (to_N b2) = v)
      by congruence.
    repeat split; (discriminate || lia).
  - intros Hv. assert (Hv' : Z.of_N (to_N b1) = v) by congruence.
    repeat split; (discriminate || lia).
Qed.

(** X2. [_parse_heart_rate] reads at most the first three bytes: whatever
    follows them does not change the result. *)
Theorem parse_heart_rate_prefix (data : list byte) :
  _parse_heart_rate data = _parse_heart_rate (firstn 3 data).
Proof.
  destruct data as [| b0 [| b1 [| b2 rest]]]; try reflexivity.
  cbn [firstn]. now rewrite !parse_heart_rate_cons2.
Qed.

(** X3. Of the flags byte only bit 0 is looked at: two payloads that differ
    in the other flag bits alone decode alike. *)
Theorem parse_heart_rate_flags (b0 b0' : byte) (rest : list byte) :
  Z.testbit (Z.of_N (to_N b0)) 0 = Z.testbit (Z.of_N (to_N b0')) 0 ->
  _parse_heart_rate (b0 :: rest) = _parse_heart_rate (b0' :: rest).
Proof.
  intros Hbit. destruct rest as [| b1 rest]; [reflexivity |].
  now rewrite !parse_heart_rate_cons2, Hbit.
Qed.

Section MoreStateMachine.

Context {D : Type}.
Implicit Types (s : AppState D) (f : Frame) (bt : bool).

(** ** Field by field *)

Lemma handle_button_a_heart_rate bt f s :
  heart_rate (handle_button_a bt f s) = heart_rate s
  \/ heart_rate (handle_button_a bt f s) = 0.
Proof.
  unfold handle_button_a, _start_scan.
  repeat case_if; cbn; auto.
Qed.

Lemma scan_timeout_heart_rate now s :
  heart_rate (scan_timeout now s) = heart_rate s.
Proof. unfold scan_timeout. repeat case_if; reflexivity. Qed.

Lemma refresh_hr_heart_rate now s :
  heart_rate (refresh_hr now s) = heart_rate s
  \/ 64 <= heart_rate (refresh_hr now s) <= 80.
Proof.
  unfold refresh_hr, _simulate_hr_reading. cbv zeta.
  repeat case_if; auto.
  right. cbn [heart_rate set_hr_update_time set_heart_rate].
  pose proof (variation_range now). lia.
Qed.

Lemma update_home bt f s :
  In BUTTON_HOME (pressed f) ->
  update bt f s = (false, handle_button_a bt f s).
Proof.
  intros HH. apply is_pressed_In in HH. unfold update. now rewrite HH.
Qed.

Lemma update_no_home bt f s :
  ~ In BUTTON_HOME (pressed f) ->
  update bt f s =
  (true, refresh_hr (ticks f) (scan_timeout (ticks f) (handle_button_a bt f s))).
Proof.
  intros HH. apply is_pressed_not_In in HH. unfold update. now rewrite HH.
Qed.

Lemma step_scan_duration bt s c :
  scan_duration (step bt s c) = scan_duration s.
Proof.
  destruct c as [| f |]; [reflexivity | | reflexivity].
  cbn [step]. unfold update, handle_button_a, _start_scan, scan_timeout,
    refresh_hr, _simulate_hr_reading.
  repeat (case_if; cbn [snd]); reflexivity.
Qed.

Lemma step_devices_found bt s c :
  devices_found s = [] -> devices_found (step bt s c) = [].
Proof.
  intros Hd. destruct c as [| f |]; [exact Hd | | exact Hd].
  cbn [step]. unfold update, handle_button_a, _start_scan, scan_timeout,
    refresh_hr, _simulate_hr_reading.
  repeat (case_if; cbn [snd]); (exact Hd || reflexivity).
Qed.

Lemma step_heart_rate bt s c :
  heart_rate s = 0 \/ 64 <= heart_rate s <= 80 ->
  heart_rate (step bt s c) = 0 \/ 64 <= heart_rate (step bt s c) <= 80.
Proof.
  intros Hs. destruct c as [| f |]; [exact Hs | | now left].
  cbn [step].
  assert (Ha : heart_rate (handle_button_a bt f s) = 0
               \/ 64 <= heart_rate (handle_button_a bt f s) <= 80).
  { destruct (handle_button_a_heart_rate bt f s) as [-> | ->]; auto. }
  destruct (is_pressed BUTTON_HOME (pressed f)) eqn:E.
  - apply is_pressed_In in E. now rewrite update_home by exact E.
  - assert (HH : ~ In BUTTON_HOME (pressed f))
      by (intros H; apply is_pressed_In in H; congruence).
    rewrite update_no_home by exact HH. cbn [snd].
    destruct (refresh_hr_heart_rate (ticks f)
                (scan_timeout (ticks f) (handle_button_a bt f s)))
      as [Hr | Hr]; [| now right].
    now rewrite Hr, scan_timeout_heart_rate.
Qed.

Lemma handle_button_a_scanning bt f s :
  is_scanning s = true -> is_connected s = false ->
  handle_button_a bt f s = s.
Proof.
  intros Hs Hc. unfold handle_button_a. rewrite Hs, Hc. cbn [negb andb].
  now destruct (is_pressed BUTTON_A (pressed f)).
Qed.

Lemma handle_button_a_not_pressed bt f s :
  ~ In BUTTON_A (pressed f) -> handle_button_a bt f s = s.
Proof.
  intros HA. apply is_pressed_not_In in HA.
  unfold handle_button_a. now rewrite HA.
Qed.

Lemma is_pressed_iff (b : Button) (l l' : list Button) :
  (In b l <-> In b l') -> is_pressed b l = is_pressed b l'.
Proof.
  intros H. destruct (is_pressed b l) eqn:E, (is_pressed b l') eqn:E';
    try reflexivity.
  - apply is_pressed_In, H, is_pressed_In in E. congruence.
  - apply is_pressed_In, H, is_pressed_In in E'. congruence.
Qed.

Lemma run_scan_duration bt (cs : list Call) s :
  scan_duration (run bt cs s) = scan_duration s.
Proof.
  revert s. induction cs as [| c cs IH]; intros s; [reflexivity |].
  rewrite run_cons, IH. apply step_scan_duration.
Qed.

Lemma run_devices_found bt (cs : list Call) s :
  devices_found s = [] -> devices_found (run bt cs s) = [].
Proof.
  revert s. induction cs as [| c cs IH]; intros s Hs; [exact Hs |].
  rewrite run_cons. apply IH. now apply step_devices_found.
Qed.

(** ** Transitions and invariants beyond the claims *)

(** X4. Pressing A while connected (and not scanning) disconnects within
    that frame: the state is idle again with [heart_rate] 0, the other
    fields are kept, and no new scan is started by the same press. *)
Theorem disconnect_transition bt f s :
  In BUTTON_A (pressed f) ->
  is_connected s = true -> is_scanning s = false ->
  snd (update bt f s) =
  mkState 0 false false (scan_start s) (scan_duration s) (hr_update_time s)
          (devices_found s).
Proof. apply update_disconnect. Qed.

(** X5. [update] returns [False] exactly when HOME is among the pressed
    buttons, and such a frame skips the scan timeout and the heart-rate
    refresh: unless A is pressed too outside a scan, it leaves the state
    untouched even when a timeout or a refresh is due. *)
Theorem home_frame_exits bt f s :
  (fst (update bt f s) = false <-> In BUTTON_HOME (pressed f))
  /\ (In BUTTON_HOME (pressed f) ->
      ~ In BUTTON_A (pressed f)
      \/ (is_scanning s = true /\ is_connected s = false) ->
      snd (update bt f s) = s).
Proof.
  split.
  - rewrite <- is_pressed_In. unfold update.
    destruct (is_pressed BUTTON_HOME (pressed f)); cbn [fst];
      split; congruence.
  - intros HH Hcase. rewrite update_home by exact HH. cbn [snd].
    destruct Hcase as [HA | [Hs Hc]].
    + now apply handle_button_a_not_pressed.
    + now apply handle_button_a_scanning.
Qed.

(** X6. No call ever changes [scan_duration], and from the initial state
    it stays 3000 while [devices_found] stays empty. *)
Theorem run_keeps_configuration bt (cs : list Call) :
  (forall s, scan_duration (run bt cs s) = scan_duration s)
  /\ scan_duration (run bt cs (@state D)) = 3000
  /\ devices_found (run bt cs (@state D)) = [].
Proof.
  split; [apply run_scan_duration |].
  split; [now rewrite run_scan_duration |].
  now apply run_devices_found.
Qed.

(** X7. After any sequence of calls from the initial state the stored heart
    rate is 0 or lies in [64, 80]. *)
Theorem reachable_heart_rate_range bt (cs : list Call) :
  let s := run bt cs (@state D) in
  heart_rate s = 0 \/ 64 <= heart_rate s <= 80.
Proof.
  cbv zeta.
  assert (H : forall s, heart_rate s = 0 \/ 64 <= heart_rate s <= 80 ->
              heart_rate (run bt cs s) = 0
              \/ 64 <= heart_rate (run bt cs s) <= 80).
  { induction cs as [| c cs IH]; intros s Hs; [exact Hs |].
    rewrite run_cons. apply IH. now apply step_heart_rate. }
  apply H. now left.
Qed.

(** X8. A scan cannot be cancelled: while scanning, two frames with the
    same tick that agree on HOME give the same result, whatever the other
    buttons, A included. *)
Theorem scan_not_cancellable bt f f' s :
  is_scanning s = true -> is_connected s = false ->
  ticks f = ticks f' ->
  (In BUTTON_HOME (pressed f) <-> In BUTTON_HOME (pressed f')) ->
  update bt f s = update bt f' s.
Proof.
  intros Hs Hc Ht HH. apply is_pressed_iff in HH.
  unfold update. rewrite !handle_button_a_scanning by assumption.
  now rewrite HH, Ht.
Qed.

(** X9. Whenever a frame completes a scan in a state reached from the
    initial one, the app is connected with [heart_rate] 0 and
    [hr_update_time] stamped with the tick of that frame. *)
Theorem scan_completion_shows_zero bt (cs : list Call) f :
  let s := run bt cs (@state D) in
  is_scanning s = true ->
  ~ In BUTTON_HOME (pressed f) ->
  ticks f - scan_start s >= scan_duration s ->
  let s' := snd (update bt f s) in
  is_connected s' = true /\ is_scanning s' = false
  /\ heart_rate s' = 0 /\ hr_update_time s' = ticks f.
Proof.
  cbv zeta. intros Hs HH He.
  destruct (run_consistent bt cs _ (@state_consistent D)) as [Hx Hz].
  assert (Hc : is_connected (run bt cs (@state D)) = false).
  { rewrite Hs in Hx. now destruct (is_connected (run bt cs (@state D))). }
  rewrite update_while_scanning by assumption. cbn [snd].
  rewrite scan_timeout_fires by assumption. cbn.
  repeat split. now apply Hz.
Qed.

(** X10. With a positive scan duration, one frame makes the app scanning
    only through a press of A with Bluetooth present while not connected,
    and connected only through the timeout of a running scan in a frame
    without HOME. *)
Theorem transitions_need_triggers bt f s :
  0 < scan_duration s ->
  let s' := snd (update bt f s) in
  (is_scanning s' = true ->
   is_scanning s = true
   \/ (bt = true /\ In BUTTON_A (pressed f) /\ is_connected s = false))
  /\ (is_connected s' = true ->
      is_connected s = true
      \/ (is_scanning s = true /\ ~ In BUTTON_HOME (pressed f)
          /\ ticks f - scan_start s >= scan_duration s)).
Proof.
  intros Hd. cbv zeta.
  rewrite <- !is_pressed_In.
  destruct s as [hr c sc ss sd ut dv]. cbn in Hd.
  unfold update, handle_button_a, _start_scan, scan_timeout, refresh_hr,
    _simulate_hr_reading.
  destruct c, sc, bt, (is_pressed BUTTON_A (pressed f)),
    (is_pressed BUTTON_HOME (pressed f)); cbn;
    repeat (case_if; cbn);
    split; intros H; try discriminate H; auto;
    try (right; repeat split; (discriminate || geb_lia));
    try (rewrite Z.sub_diag in *; geb_lia).
Qed.

End MoreStateMachine.

(** ** The screen side of a frame *)

Lemma heart_radius_range (size : Z) (pulse : R) :
  (0 <= pulse <= 1)%R -> 1 <= size ->
  size <= heart_radius size pulse <= 13 * size / 10.
Proof.
  intros Hp Hsz. unfold heart_radius. cbv zeta.
  set (x := (IZR size * (1 + pulse * (3 / 10)))%R).
  assert (HS : (1 <= IZR size)%R) by now apply IZR_le.
  assert (Hx : (IZR size <= x <= 13 / 10 * IZR size)%R)
    by (unfold x; split; nra).
  assert (Hfl : py_int x = Int_part x).
  { unfold py_int. destruct (Rle_dec 0 x) as [_ | Hn]; [reflexivity | lra]. }
  rewrite Hfl. destruct (base_Int_part x) as [Hlo Hhi].
  assert (H1 : size <= Int_part x).
  { assert (H : (IZR size < IZR (Int_part x + 1))%R)
      by (rewrite plus_IZR; lra).
    apply lt_IZR in H. lia. }
  assert (H2 : Int_part x <= 13 * size / 10).
  { apply Z.div_le_lower_bound; [lia |].
    apply le_IZR. rewrite !mult_IZR. lra. }
  lia.
Qed.

Lemma progress_floor (e d : Z) :
  0 <= e -> 0 < d ->
  py_int (140 * (IZR e / IZR d)) = 140 * e / d.
Proof.
  intros He Hd.
  assert (HD : (0 < IZR d)%R) by now apply IZR_lt.
  assert (HE : (0 <= IZR e)%R) by now apply IZR_le.
  set (k := 140 * e / d).
  assert (Hk1 : d * k <= 140 * e) by (apply Z.mul_div_le; lia).
  assert (Hk2 : 140 * e < d * (k + 1))
    by (pose proof (Z.mul_succ_div_gt (140 * e) d Hd); unfold k; lia).
  apply IZR_le in Hk1. apply IZR_lt in Hk2.
  rewrite !mult_IZR in Hk1, Hk2. rewrite plus_IZR in Hk2.
  assert (Hq : (140 * (IZR e / IZR d) * IZR d = 140 * IZR e)%R)
    by (field; lra).
  set (x := (140 * (IZR e / IZR d))%R) in *.
  assert (Hx0 : (0 <= x)%R).
  { unfold x. apply Rmult_le_pos; [lra |].
    apply Rmult_le_pos; [exact HE |].
    apply Rlt_le, Rinv_0_lt_compat, HD. }
  apply py_int_floor; [exact Hx0 |]. split; nra.
Qed.

Section ScreenProperties.

Context {D : Type}.
Variable bt : bool.
Variable mt : string -> Z * Z.
Implicit Types (s : AppState D) (f : Frame).

Lemma frame_scan_duration f s :
  scan_duration (scan_timeout (ticks f) (handle_button_a bt f s))
  = scan_duration s.
Proof.
  unfold handle_button_a, _start_scan, scan_timeout.
  repeat case_if; reflexivity.
Qed.

Lemma simulate_is_connected now s :
  is_connected (_simulate_hr_reading now s) = is_connected s.
Proof. unfold _simulate_hr_reading. cbv zeta. now case_if. Qed.

(** X11. The heart icon is never drawn with a radius below 1; for a pulse
    in [0, 1] and a size of at least 1 the radius lies between the size and
    13/10 of it rounded down, and the icon of the connected view (size 15,
    pulse [abs(sin(now / 300))]) has a radius in [15, 19]. *)
Theorem heart_radius_bounds (size : Z) (pulse : R) :
  1 <= heart_radius size pulse
  /\ ((0 <= pulse <= 1)%R -> 1 <= size ->
      size <= heart_radius size pulse <= 13 * size / 10)
  /\ (forall now : Z,
        15 <= heart_radius 15 (Rabs (sin (IZR now / 300))) <= 19).
Proof.
  split; [unfold heart_radius; lia |].
  split; [apply heart_radius_range |].
  intros now. change 19 with (13 * 15 / 10).
  apply heart_radius_range; [| lia].
  split; [apply Rabs_pos |].
  apply Rabs_le. pose proof (SIN_bound (IZR now / 300)). lra.
Qed.

(** X12. The scanning text carries between one and four dots, whatever the
    tick; it starts with one dot and every 500 ms moves on to the next
    count, four being followed by one. *)
Theorem scan_dots_cycle (now t0 : Z) :
  1 <= scan_dots now t0 <= 4
  /\ scan_dots t0 t0 = 1
  /\ scan_dots (now + 500) t0 = scan_dots now t0 mod 4 + 1.
Proof.
  unfold scan_dots. cbv zeta. repeat split.
  - pose proof (Z.mod_pos_bound ((now - t0) / 500) 4). lia.
  - pose proof (Z.mod_pos_bound ((now - t0) / 500) 4). lia.
  - now rewrite Z.sub_diag.
  - replace (now + 500 - t0) with (now - t0 + 1 * 500) by lia.
    rewrite Z.div_add by lia.
    now rewrite Z.add_mod_idemp_l by lia.
Qed.

(** X13. While the elapsed scan time is non-negative and below the scan
    duration, the progress bar width is 140 times elapsed over duration,
    rounded down, and lies in [0, 139]. *)
Theorem progress_bar_w_floor (now t0 d : Z) :
  0 <= now - t0 < d ->
  progress_bar_w now t0 d = Some (140 * (now - t0) / d)
  /\ 0 <= 140 * (now - t0) / d <= 139.
Proof.
  intros [He Hd]. unfold progress_bar_w. cbv zeta.
  replace (d =? 0) with false by (symmetry; apply Z.eqb_neq; lia).
  rewrite progress_floor by lia. split; [reflexivity |]. split.
  - apply Z.div_pos; lia.
  - assert (H : 140 * (now - t0) / d < 140)
      by (apply Z.div_lt_upper_bound; lia).
    lia.
Qed.

(** X14. Drawing never changes what a frame does to the state, and
    [update] raises ZeroDivisionError only on a zero scan duration: with a
    non-zero one it returns the flag of the state machine, and it returns in
    every state reached from the initial one. *)
Theorem update_screen_returns f s :
  snd (update_screen bt mt f s) = snd (update bt f s)
  /\ (scan_duration s <> 0 ->
      returned (fst (update_screen bt mt f s)) = Some (fst (update bt f s)))
  /\ (forall cs : list Call,
        returned (fst (update_screen bt mt f (run bt cs (@state D))))
        <> None).
Proof.
  assert (Hret : forall s0, scan_duration s0 <> 0 ->
            returned (fst (update_screen bt mt f s0))
            = Some (fst (update bt f s0))).
  { intros s0 Hd. unfold update_screen, update.
    destruct (is_pressed BUTTON_HOME (pressed f)); [reflexivity |].
    cbv zeta.
    destruct (is_connected (scan_timeout (ticks f) (handle_button_a bt f s0)));
      [reflexivity |].
    destruct (is_scanning (scan_timeout (ticks f) (handle_button_a bt f s0)));
      [| reflexivity].
    unfold scanning_view, progress_bar_w. cbv zeta.
    rewrite frame_scan_duration.
    replace (scan_duration s0 =? 0) with false
      by (symmetry; now apply Z.eqb_neq).
    reflexivity. }
  split; [| split].
  - unfold update_screen, update.
    destruct (is_pressed BUTTON_HOME (pressed f)); [reflexivity |].
    cbv zeta. unfold refresh_hr.
    destruct (is_connected (scan_timeout (ticks f) (handle_button_a bt f s)));
      [reflexivity |].
    destruct (is_scanning (scan_timeout (ticks f) (handle_button_a bt f s)));
      [| reflexivity].
    now destruct (scanning_view _ _).
  - apply Hret.
  - intros cs. rewrite Hret; [discriminate |].
    rewrite run_scan_duration. discriminate.
Qed.

(** X15. A frame with HOME pressed draws nothing after the clear and the
    font selection; every other frame draws the title and then the one view
    of the state it leaves: connected, else scanning, else idle. *)
Theorem update_screen_view f s :
  let s' := snd (update bt f s) in
  let out := fst (update_screen bt mt f s) in
  (In BUTTON_HOME (pressed f) -> ops out = frame_prologue)
  /\ (~ In BUTTON_HOME (pressed f) ->
      ops out =
      frame_prologue ++ frame_title ++
      (if is_connected s' then connected_view mt (ticks f) s'
       else if is_scanning s' then fst (scanning_view (ticks f) s')
       else idle_view)).
Proof.
  cbv zeta. split; intros HH.
  - apply is_pressed_In in HH. unfold update_screen. now rewrite HH.
  - apply is_pressed_not_In in HH. unfold update_screen, update.
    rewrite HH. cbv zeta. unfold refresh_hr.
    destruct (is_connected (scan_timeout (ticks f) (handle_button_a bt f s)))
      eqn:Ec; cbn [fst snd ops].
    + now rewrite simulate_is_connected, Ec.
    + rewrite Ec.
      destruct (is_scanning (scan_timeout (ticks f) (handle_button_a bt f s)));
        [| reflexivity].
      now destruct (scanning_view _ _).
Qed.

End ScreenProperties.

(** ** Concrete instances of the further properties *)

Lemma parse_heart_rate_value_witness :
  let data := ["001"; "075"; "000"]%byte in
  75 = byte_at data 1 + 256 * byte_at data 2 /\ 0 <= 75 < 65536.
Proof.
  cbv zeta.
  destruct (parse_heart_rate_value ["001"; "075"; "000"]%byte 75)
    as [_ [H16 Hr]].
  - reflexivity.
  - split; [apply H16; reflexivity | exact Hr].
Defined.

Lemma parse_heart_rate_flags_witness :
  _parse_heart_rate ["001"; "075"; "000"]%byte
  = _parse_heart_rate ["003"; "075"; "000"]%byte.
Proof.
  apply (parse_heart_rate_flags "001" "003" ["075"; "000"]%byte).
  reflexivity.
Defined.

Lemma disconnect_transition_witness :
  snd (update true (press_a 4000)
         (mkState 75 true false 0 3000 3600 (@nil unit)))
  = mkState 0 false false 0 3000 3600 [].
Proof.
  apply (disconnect_transition true (press_a 4000)
           (mkState 75 true false 0 3000 3600 (@nil unit))).
  - simpl. left. reflexivity.
  - reflexivity.
  - reflexivity.
Defined.

Lemma home_frame_exits_witness :
  let f := mkFrame [BUTTON_A; BUTTON_HOME] 5000 in
  fst (update true f scanning_since_0) = false
  /\ snd (update true f scanning_since_0) = scanning_since_0.
Proof.
  cbv zeta.
  destruct (home_frame_exits true (mkFrame [BUTTON_A; BUTTON_HOME] 5000)
              scanning_since_0) as [Hflag Hstate].
  assert (HH : In BUTTON_HOME [BUTTON_A; BUTTON_HOME])
    by (simpl; right; left; reflexivity).
  split.
  - apply Hflag. exact HH.
  - apply Hstate; [exact HH |]. right. split; reflexivity.
Defined.

Lemma scan_not_cancellable_witness :
  update true (press_a 100) scanning_since_0
  = update true (idle_frame 100) scanning_since_0.
Proof.
  apply (scan_not_cancellable true (press_a 100) (idle_frame 100)
           scanning_since_0).
  - reflexivity.
  - reflexivity.
  - reflexivity.
  - simpl. split; [intros [H | H]; [discriminate H | exact H] | tauto].
Defined.

Lemma scan_completion_shows_zero_witness :
  let s' := snd (update true (idle_frame 3001)
                   (run true [call_update (press_a 0)] (@state unit))) in
  is_connected s' = true /\ is_scanning s' = false
  /\ heart_rate s' = 0 /\ hr_update_time s' = 3001.
Proof.
  apply (scan_completion_shows_zero true [call_update (press_a 0)]
           (idle_frame 3001)).
  - reflexivity.
  - simpl. tauto.
  - simpl. lia.
Defined.

Lemma transitions_need_triggers_witness :
  is_connected scanning_since_0 = true
  \/ (is_scanning scanning_since_0 = true
      /\ ~ In BUTTON_HOME (pressed (idle_frame 3001))
      /\ ticks (idle_frame 3001) - scan_start scanning_since_0
         >= scan_duration scanning_since_0).
Proof.
  destruct (transitions_need_triggers true (idle_frame 3001)
              scanning_since_0) as [_ H].
  - reflexivity.
  - apply H. reflexivity.
Defined.

Lemma heart_radius_bounds_witness :
  15 <= heart_radius 15 (1 / 2) <= 13 * 15 / 10.
Proof.
  destruct (heart_radius_bounds 15 (1 / 2)) as [_ [H _]].
  apply H; [lra | lia].
Defined.

Lemma progress_bar_w_floor_witness :
  progress_bar_w 1500 0 3000 = Some 70.
Proof.
  destruct (progress_bar_w_floor 1500 0 3000) as [H _].
  - lia.
  - exact H.
Defined.

Lemma update_screen_returns_witness :
  returned (fst (update_screen true (fun _ => (0, 0)) (press_a 0)
                   (@state unit))) = Some true.
Proof.
  destruct (update_screen_returns true (fun _ => (0, 0)) (press_a 0)
              (@state unit)) as [_ [H _]].
  apply H. discriminate.
Defined.

Lemma update_screen_view_witness :
  ops (fst (update_screen true (fun _ => (0, 0)) (idle_frame 0)
              (@state unit)))
  = frame_prologue ++ frame_title ++ idle_view.
Proof.
  destruct (update_screen_view true (fun _ => (0, 0)) (idle_frame 0)
              (@state unit)) as [_ H].
  apply H. simpl. tauto.
Defined.

End HeartRate.
